(** * Schema validation settings of kin-openapi (package [openapi3])

    A shallow embedding of [openapi3/schema_validation_settings.go]: the
    settings struct, the twelve functional options, the constructor
    [newSchemaValidationSettings] and the method [schemaResolve], followed by
    the properties of the validation-policy layer that are stated about them.

    Conventions of the embedding.
    - A Go pointer or func value is an [option]: [None] is [nil].
    - Dereferencing [nil], and calling a [nil] func, is the runtime panic
      "invalid memory address or nil pointer dereference": [Panicked
      NilDereference].
    - The user-supplied hooks are closures with side effects on the rest of
      the program.  A hook therefore transforms an abstract [World], and
      every invocation of a hook is recorded as an [event], so that
      "the hook is (not) invoked" is a statement about the recorded calls.
      Hooks are assumed to return normally.
    - [Schema] and [SchemaError] are declared in other files of the package
      and are kept abstract; of [SchemaRef] only the two fields read here
      ([Ref] and [Value]) are kept. *)

From Stdlib Require Import String List Bool Arith Lia.
Import ListNotations.
Local Open Scope string_scope.
Local Open Scope list_scope.

(** ** Go runtime: panics and results *)

Inductive panic : Type :=
| NilDereference.

Inductive outcome (A : Type) : Type :=
| Returned (a : A)
| Panicked (p : panic).

Arguments Returned {A} a.
Arguments Panicked {A} p.

(** ** Sample hooks, used in the worked instances at the end of the file.
    Schemas are represented by their names, schema errors by a number, and
    the world by a counter of side effects. *)

Definition petResolver (ref : string) (w : nat) : option string * nat :=
  (if String.eqb ref "#/components/schemas/Pet" then Some "Pet" else None, S w).

Definition countDefaults (w : nat) : nat := w + 100.

Definition onlyOddErrors (err : nat) (w : nat) : string * nat :=
  (if Nat.odd err then "odd error" else "", S w).

Definition numberedError (err : nat) : string :=
  if Nat.eqb err 0 then "error zero" else "error".

Section Settings.

Variables Schema SchemaError World : Type.

(** [type SchemaRef struct { Ref string; Value *Schema; ... }] *)
Record SchemaRef : Type := mkSchemaRef {
  Ref : string;
  Value : option Schema
}.

(** ** Hooks and their invocations *)

(** [func(string) *Schema] *)
Definition resolveHook : Type := string -> World -> option Schema * World.
(** [func()] *)
Definition defaultsHook : Type := World -> World.
(** [func(err *SchemaError) string] *)
Definition messageHook : Type := SchemaError -> World -> string * World.

Inductive event : Type :=
| CallSchemaResolve (ref : string)
| CallDefaultsSet
| CallMessageError (err : SchemaError).

(** What a computation leaves behind: its result, the world after it, and the
    hook invocations it made, oldest first. *)
Record run (A : Type) : Type := mkRun {
  result : outcome A;
  world : World;
  calls : list event
}.

Arguments mkRun {A} result world calls.
Arguments result {A} r.
Arguments world {A} r.
Arguments calls {A} r.

Definition M (A : Type) : Type := World -> run A.

Definition ret {A : Type} (a : A) : M A :=
  fun w => mkRun (Returned a) w [].

Definition raise {A : Type} (p : panic) : M A :=
  fun w => mkRun (Panicked p) w [].

Definition bind {A B : Type} (m : M A) (k : A -> M B) : M B :=
  fun w =>
    let r := m w in
    match result r with
    | Returned a =>
        let r' := k a (world r) in
        mkRun (result r') (world r') (calls r ++ calls r')
    | Panicked p => mkRun (Panicked p) (world r) (calls r)
    end.

Notation "x <- m ;; k" := (bind m (fun x => k))
  (at level 61, m at next level, right associativity).

(** [p.field] on a pointer [p]. *)
Definition deref {A : Type} (p : option A) : M A :=
  match p with
  | Some a => ret a
  | None => raise NilDereference
  end.

Definition callSchemaResolve (f : resolveHook) (ref : string) : M (option Schema) :=
  fun w => let (v, w') := f ref w in mkRun (Returned v) w' [CallSchemaResolve ref].

Definition callDefaultsSet (f : defaultsHook) : M unit :=
  fun w => mkRun (Returned tt) (f w) [CallDefaultsSet].

Definition callMessageError (f : messageHook) (err : SchemaError) : M string :=
  fun w => let (msg, w') := f err w in mkRun (Returned msg) w' [CallMessageError err].

(** ** The settings struct *)

(** [sync.Once]: the latch is down once [Do] has run its function. *)
Record Once : Type := mkOnce {
  done : bool
}.

Record schemaValidationSettings : Type := mkSettings {
  failfast : bool;
  multiError : bool;
  asreq : bool;
  asrep : bool;
  formatValidationEnabled : bool;
  unknownPropertyValidationEnabled : bool;
  patternValidationDisabled : bool;
  readOnlyValidationDisabled : bool;
  writeOnlyValidationDisabled : bool;
  onceSettingDefaults : Once;
  defaultsSet : option defaultsHook;
  customizeMessageError : option messageHook;
  customizeSchemaResolve : option resolveHook
}.

(** Field assignments [s.f = v]. *)

Definition set_failfast (v : bool) (s : schemaValidationSettings) :=
  mkSettings v (multiError s) (asreq s) (asrep s)
    (formatValidationEnabled s) (unknownPropertyValidationEnabled s)
    (patternValidationDisabled s) (readOnlyValidationDisabled s)
    (writeOnlyValidationDisabled s) (onceSettingDefaults s) (defaultsSet s)
    (customizeMessageError s) (customizeSchemaResolve s).

Definition set_multiError (v : bool) (s : schemaValidationSettings) :=
  mkSettings (failfast s) v (asreq s) (asrep s)
    (formatValidationEnabled s) (unknownPropertyValidationEnabled s)
    (patternValidationDisabled s) (readOnlyValidationDisabled s)
    (writeOnlyValidationDisabled s) (onceSettingDefaults s) (defaultsSet s)
    (customizeMessageError s) (customizeSchemaResolve s).

Definition set_asreq (v : bool) (s : schemaValidationSettings) :=
  mkSettings (failfast s) (multiError s) v (asrep s)
    (formatValidationEnabled s) (unknownPropertyValidationEnabled s)
    (patternValidationDisabled s) (readOnlyValidationDisabled s)
    (writeOnlyValidationDisabled s) (onceSettingDefaults s) (defaultsSet s)
    (customizeMessageError s) (customizeSchemaResolve s).

Definition set_asrep (v : bool) (s : schemaValidationSettings) :=
  mkSettings (failfast s) (multiError s) (asreq s) v
    (formatValidationEnabled s) (unknownPropertyValidationEnabled s)
    (patternValidationDisabled s) (readOnlyValidationDisabled s)
    (writeOnlyValidationDisabled s) (onceSettingDefaults s) (defaultsSet s)
    (customizeMessageError s) (customizeSchemaResolve s).

Definition set_formatValidationEnabled (v : bool) (s : schemaValidationSettings) :=
  mkSettings (failfast s) (multiError s) (asreq s) (asrep s)
    v (unknownPropertyValidationEnabled s)
    (patternValidationDisabled s) (readOnlyValidationDisabled s)
    (writeOnlyValidationDisabled s) (onceSettingDefaults s) (defaultsSet s)
    (customizeMessageError s) (customizeSchemaResolve s).

Definition set_unknownPropertyValidationEnabled (v : bool) (s : schemaValidationSettings) :=
  mkSettings (failfast s) (multiError s) (asreq s) (asrep s)
    (formatValidationEnabled s) v
    (patternValidationDisabled s) (readOnlyValidationDisabled s)
    (writeOnlyValidationDisabled s) (onceSettingDefaults s) (defaultsSet s)
    (customizeMessageError s) (customizeSchemaResolve s).

Definition set_patternValidationDisabled (v : bool) (s : schemaValidationSettings) :=
  mkSettings (failfast s) (multiError s) (asreq s) (asrep s)
    (formatValidationEnabled s) (unknownPropertyValidationEnabled s)
    v (readOnlyValidationDisabled s)
    (writeOnlyValidationDisabled s) (onceSettingDefaults s) (defaultsSet s)
    (customizeMessageError s) (customizeSchemaResolve s).

Definition set_readOnlyValidationDisabled (v : bool) (s : schemaValidationSettings) :=
  mkSettings (failfast s) (multiError s) (asreq s) (asrep s)
    (formatValidationEnabled s) (unknownPropertyValidationEnabled s)
    (patternValidationDisabled s) v
    (writeOnlyValidationDisabled s) (onceSettingDefaults s) (defaultsSet s)
    (customizeMessageError s) (customizeSchemaResolve s).

Definition set_writeOnlyValidationDisabled (v : bool) (s : schemaValidationSettings) :=
  mkSettings (failfast s) (multiError s) (asreq s) (asrep s)
    (formatValidationEnabled s) (unknownPropertyValidationEnabled s)
    (patternValidationDisabled s) (readOnlyValidationDisabled s)
    v (onceSettingDefaults s) (defaultsSet s)
    (customizeMessageError s) (customizeSchemaResolve s).

Definition set_onceSettingDefaults (v : Once) (s : schemaValidationSettings) :=
  mkSettings (failfast s) (multiError s) (asreq s) (asrep s)
    (formatValidationEnabled s) (unknownPropertyValidationEnabled s)
    (patternValidationDisabled s) (readOnlyValidationDisabled s)
    (writeOnlyValidationDisabled s) v (defaultsSet s)
    (customizeMessageError s) (customizeSchemaResolve s).

Definition set_defaultsSet (v : option defaultsHook) (s : schemaValidationSettings) :=
  mkSettings (failfast s) (multiError s) (asreq s) (asrep s)
    (formatValidationEnabled s) (unknownPropertyValidationEnabled s)
    (patternValidationDisabled s) (readOnlyValidationDisabled s)
    (writeOnlyValidationDisabled s) (onceSettingDefaults s) v
    (customizeMessageError s) (customizeSchemaResolve s).

Definition set_customizeMessageError (v : option messageHook) (s : schemaValidationSettings) :=
  mkSettings (failfast s) (multiError s) (asreq s) (asrep s)
    (formatValidationEnabled s) (unknownPropertyValidationEnabled s)
    (patternValidationDisabled s) (readOnlyValidationDisabled s)
    (writeOnlyValidationDisabled s) (onceSettingDefaults s) (defaultsSet s)
    v (customizeSchemaResolve s).

Definition set_customizeSchemaResolve (v : option resolveHook) (s : schemaValidationSettings) :=
  mkSettings (failfast s) (multiError s) (asreq s) (asrep s)
    (formatValidationEnabled s) (unknownPropertyValidationEnabled s)
    (patternValidationDisabled s) (readOnlyValidationDisabled s)
    (writeOnlyValidationDisabled s) (onceSettingDefaults s) (defaultsSet s)
    (customizeMessageError s) v.

(** [&schemaValidationSettings{}]: every field at its zero value. *)
Definition zeroSettings : schemaValidationSettings :=
  mkSettings false false false false false false false false false
    (mkOnce false) None None None.

(** ** [schemaResolve] *)

(** The receiver and the argument are pointers.  [schemaRef.Value] is read
    first; [s.customizeSchemaResolve] is read only when that value is [nil]
    (the right operand of [||]). *)
Definition schemaResolve (s : option schemaValidationSettings)
    (schemaRef : option SchemaRef) : M (option Schema) :=
  r <- deref schemaRef ;;
  let value := Value r in
  match value with
  | Some _ => ret value
  | None =>
      st <- deref s ;;
      match customizeSchemaResolve st with
      | None => ret value
      | Some resolve =>
          let ref := Ref r in
          if (0 <? String.length ref)%nat
          then callSchemaResolve resolve ref
          else ret value
      end
  end.

(** ** Options *)

(** [SchemaValidationOption]: a func value, possibly [nil], that takes a
    pointer to the settings and mutates them.  A non-nil option is taken to
    return normally, as the closures of the package's twelve constructors
    do; what is proved of construction is stated for those. *)
Definition SchemaValidationOption : Type :=
  option (schemaValidationSettings -> schemaValidationSettings).

Definition SetCustomizeSchemaResolve (resolve : option resolveHook) : SchemaValidationOption :=
  Some (fun s => set_customizeSchemaResolve resolve s).

Definition FailFast : SchemaValidationOption :=
  Some (fun s => set_failfast true s).

Definition MultiErrors : SchemaValidationOption :=
  Some (fun s => set_multiError true s).

(** [s.asreq, s.asrep = true, false] *)
Definition VisitAsRequest : SchemaValidationOption :=
  Some (fun s => set_asrep false (set_asreq true s)).

(** [s.asreq, s.asrep = false, true] *)
Definition VisitAsResponse : SchemaValidationOption :=
  Some (fun s => set_asrep true (set_asreq false s)).

Definition EnableUnknownPropertyValidation : SchemaValidationOption :=
  Some (fun s => set_unknownPropertyValidationEnabled true s).

Definition EnableFormatValidation : SchemaValidationOption :=
  Some (fun s => set_formatValidationEnabled true s).

Definition DisablePatternValidation : SchemaValidationOption :=
  Some (fun s => set_patternValidationDisabled true s).

Definition DisableReadOnlyValidation : SchemaValidationOption :=
  Some (fun s => set_readOnlyValidationDisabled true s).

Definition DisableWriteOnlyValidation : SchemaValidationOption :=
  Some (fun s => set_writeOnlyValidationDisabled true s).

Definition DefaultsSet (f : option defaultsHook) : SchemaValidationOption :=
  Some (fun s => set_defaultsSet f s).

Definition SetSchemaErrorMessageCustomizer (f : option messageHook) : SchemaValidationOption :=
  Some (fun s => set_customizeMessageError f s).

(** [for _, opt := range opts { opt(settings) }] *)
Fixpoint applyOpts (opts : list SchemaValidationOption)
    (settings : schemaValidationSettings) : outcome schemaValidationSettings :=
  match opts with
  | [] => Returned settings
  | opt :: rest =>
      match opt with
      | Some f => applyOpts rest (f settings)
      | None => Panicked NilDereference
      end
  end.

Definition newSchemaValidationSettings (opts : list SchemaValidationOption)
    : outcome schemaValidationSettings :=
  applyOpts opts zeroSettings.

(** ** The recognized options and the logical fields they write *)

(** The logical fields of a policy an option can write; [asreq] and [asrep]
    together form the validation direction. *)
Inductive field : Type :=
| FailfastField
| MultiErrorField
| DirectionField
| FormatField
| UnknownPropertyField
| PatternField
| ReadOnlyField
| WriteOnlyField
| DefaultsSetField
| MessageErrorField
| SchemaResolveField.

(** The option values the package's constructors return, each with the
    logical field its closure assigns. *)
Inductive recognizedFor : field -> SchemaValidationOption -> Prop :=
| RecSetCustomizeSchemaResolve resolve :
    recognizedFor SchemaResolveField (SetCustomizeSchemaResolve resolve)
| RecFailFast : recognizedFor FailfastField FailFast
| RecMultiErrors : recognizedFor MultiErrorField MultiErrors
| RecVisitAsRequest : recognizedFor DirectionField VisitAsRequest
| RecVisitAsResponse : recognizedFor DirectionField VisitAsResponse
| RecEnableUnknownPropertyValidation :
    recognizedFor UnknownPropertyField EnableUnknownPropertyValidation
| RecEnableFormatValidation : recognizedFor FormatField EnableFormatValidation
| RecDisablePatternValidation : recognizedFor PatternField DisablePatternValidation
| RecDisableReadOnlyValidation : recognizedFor ReadOnlyField DisableReadOnlyValidation
| RecDisableWriteOnlyValidation : recognizedFor WriteOnlyField DisableWriteOnlyValidation
| RecDefaultsSet f : recognizedFor DefaultsSetField (DefaultsSet f)
| RecSetSchemaErrorMessageCustomizer f :
    recognizedFor MessageErrorField (SetSchemaErrorMessageCustomizer f).

Definition Recognized (opt : SchemaValidationOption) : Prop :=
  exists F, recognizedFor F opt.

(** Two settings hold the same value in logical field [F]. *)
Definition sameOn (F : field) (s s' : schemaValidationSettings) : Prop :=
  match F with
  | FailfastField => failfast s = failfast s'
  | MultiErrorField => multiError s = multiError s'
  | DirectionField => asreq s = asreq s' /\ asrep s = asrep s'
  | FormatField => formatValidationEnabled s = formatValidationEnabled s'
  | UnknownPropertyField =>
      unknownPropertyValidationEnabled s = unknownPropertyValidationEnabled s'
  | PatternField => patternValidationDisabled s = patternValidationDisabled s'
  | ReadOnlyField => readOnlyValidationDisabled s = readOnlyValidationDisabled s'
  | WriteOnlyField => writeOnlyValidationDisabled s = writeOnlyValidationDisabled s'
  | DefaultsSetField => defaultsSet s = defaultsSet s'
  | MessageErrorField => customizeMessageError s = customizeMessageError s'
  | SchemaResolveField => customizeSchemaResolve s = customizeSchemaResolve s'
  end.

(** [s'] differs from [s] at most in logical field [F]: every other logical
    field, and the once-latch, are as in [s]. *)
Definition unchangedOutside (F : field) (s s' : schemaValidationSettings) : Prop :=
  (forall F', F' <> F -> sameOn F' s s') /\
  onceSettingDefaults s = onceSettingDefaults s'.

(** A closure assigns [F] when the value it leaves in [F] does not depend on
    the settings it is applied to; it preserves [F] when it leaves [F] as it
    found it. *)
Definition assigns (F : field)
    (f : schemaValidationSettings -> schemaValidationSettings) : Prop :=
  forall s s', sameOn F (f s) (f s').

Definition preserves (F : field)
    (f : schemaValidationSettings -> schemaValidationSettings) : Prop :=
  forall s, sameOn F (f s) s.

(** The seven independent boolean toggles, the field each one is stored in
    and the option that switches it on. *)
Inductive toggle : Type :=
| TFailfast
| TMultiError
| TFormat
| TUnknownProperty
| TPattern
| TReadOnly
| TWriteOnly.

Definition toggleValue (t : toggle) (s : schemaValidationSettings) : bool :=
  match t with
  | TFailfast => failfast s
  | TMultiError => multiError s
  | TFormat => formatValidationEnabled s
  | TUnknownProperty => unknownPropertyValidationEnabled s
  | TPattern => patternValidationDisabled s
  | TReadOnly => readOnlyValidationDisabled s
  | TWriteOnly => writeOnlyValidationDisabled s
  end.

Definition toggleOption (t : toggle) : SchemaValidationOption :=
  match t with
  | TFailfast => FailFast
  | TMultiError => MultiErrors
  | TFormat => EnableFormatValidation
  | TUnknownProperty => EnableUnknownPropertyValidation
  | TPattern => DisablePatternValidation
  | TReadOnly => DisableReadOnlyValidation
  | TWriteOnly => DisableWriteOnlyValidation
  end.

(** ** Operations of the validator on a policy

    The traversal that consumes the settings lives in other files of the
    package.  The two operations below are the ones the specification
    describes on top of the fields declared here. *)

(** [sync.Once.Do] of the Go standard library, as documented: "Do calls the
    function f if and only if Do is being called for the first time for this
    instance of Once". *)
Definition Do (o : Once) (f : defaultsHook) : M Once :=
  if done o
  then ret o
  else _ <- callDefaultsSet f ;; ret (mkOnce true).

(** Modelled from the spec: the "notify defaults applied" operation, whose
    code (the traversal that substitutes schema defaults) is missing from the
    sources.  The spec: "the configured callback, if any, executes at most
    once per policy instance for its entire lifetime" and "If no callback
    configured, this operation is a no-op"; the latch is the struct's
    [onceSettingDefaults] field.  The settings are shared through a pointer,
    so the operation hands back the settings with the latch as it left it. *)
Definition notifyDefaultsApplied (s : schemaValidationSettings)
    : M schemaValidationSettings :=
  match defaultsSet s with
  | None => ret s
  | Some f =>
      o <- Do (onceSettingDefaults s) f ;;
      ret (set_onceSettingDefaults o s)
  end.

(** [n] invocations in sequence on the same policy. *)
Fixpoint notifyTimes (n : nat) (s : schemaValidationSettings)
    : M schemaValidationSettings :=
  match n with
  | O => ret s
  | S n' => s' <- notifyDefaultsApplied s ;; notifyTimes n' s'
  end.

Definition isDefaultsCall (e : event) : bool :=
  match e with
  | CallDefaultsSet => true
  | _ => false
  end.

(** How many times the defaults-applied callback was executed. *)
Definition defaultsExecutions (t : list event) : nat :=
  List.length (filter isDefaultsCall t).

(** The validator's own rendering of a schema error ([SchemaError.Error]
    without a customizer), declared elsewhere in the package. *)
Variable defaultError : SchemaError -> string.

(** Modelled from the spec: the "format error message" operation, whose code
    (the [Error] method of [SchemaError]) is missing from the sources.  The
    spec: "If no override configured, or the override yields an empty string,
    the validator must fall back to its own default rendering of that error.
    Otherwise, the override's non-empty returned string becomes the rendered
    message." *)
Definition formatErrorMessage (s : schemaValidationSettings)
    (err : SchemaError) : M string :=
  match customizeMessageError s with
  | None => ret (defaultError err)
  | Some customize =>
      msg <- callMessageError customize err ;;
      if String.eqb msg "" then ret (defaultError err) else ret msg
  end.

(** Two option values that act differently on the zero-valued settings are
    different option values. *)
Ltac option_clash H :=
  apply (f_equal (fun opt : SchemaValidationOption =>
                    match opt with
                    | Some f => Some (f zeroSettings)
                    | None => None
                    end)) in H;
  cbv in H; congruence.

(** * Properties *)

(** ** Auxiliary facts *)

Lemma applyOpts_app (xs ys : list SchemaValidationOption) :
  forall s,
    applyOpts (xs ++ ys) s =
    match applyOpts xs s with
    | Returned s' => applyOpts ys s'
    | Panicked p => Panicked p
    end.
Proof.
  induction xs as [|o xs IH]; intros s; simpl.
  - reflexivity.
  - destruct o as [f|]; [apply IH | reflexivity].
Qed.

Lemma applyOpts_closures (fs : list (schemaValidationSettings -> schemaValidationSettings)) :
  forall s,
    applyOpts (map Some fs) s = Returned (fold_left (fun acc f => f acc) fs s).
Proof.
  induction fs as [|f fs IH]; intros s; simpl; [reflexivity | apply IH].
Qed.

Lemma applyOpts_non_nil (opts : list SchemaValidationOption) :
  Forall (fun opt => opt <> None) opts ->
  forall s, exists s', applyOpts opts s = Returned s'.
Proof.
  induction 1 as [|o opts Ho _ IH]; intros s; simpl.
  - now exists s.
  - destruct o as [f|]; [apply IH | congruence].
Qed.

Lemma recognizedFor_closure F opt :
  recognizedFor F opt ->
  exists f, opt = Some f /\
    (forall s, unchangedOutside F s (f s)) /\ assigns F f.
Proof.
  intros H; destruct H; eexists; (split; [reflexivity|]); split;
    try (intros s; split; [intros F' HF'; destruct F'; simpl; auto; congruence
                          | reflexivity]);
    intros s s'; simpl; auto.
Qed.

Lemma Recognized_non_nil opt : Recognized opt -> opt <> None.
Proof.
  intros [F H]; apply recognizedFor_closure in H; destruct H as (f & -> & _).
  discriminate.
Qed.

Lemma sameOn_refl F s : sameOn F s s.
Proof. destruct F; simpl; auto. Qed.

Lemma sameOn_sym F s s' : sameOn F s s' -> sameOn F s' s.
Proof. destruct F; simpl; intuition congruence. Qed.

Lemma sameOn_trans F s1 s2 s3 : sameOn F s1 s2 -> sameOn F s2 s3 -> sameOn F s1 s3.
Proof. destruct F; simpl; intuition congruence. Qed.

Lemma recognizedFor_preserves F F' opt f :
  recognizedFor F' opt -> F <> F' -> opt = Some f -> preserves F f.
Proof.
  intros H Hne Hf s. apply recognizedFor_closure in H.
  destruct H as (g & Hg & Hframe & _).
  assert (g = f) by congruence; subst g.
  apply sameOn_sym, (Hframe s); exact Hne.
Qed.

Lemma fold_preserves F (fs : list (schemaValidationSettings -> schemaValidationSettings)) :
  Forall (preserves F) fs ->
  forall s, sameOn F (fold_left (fun acc f => f acc) fs s) s.
Proof.
  induction 1 as [|f fs Hf _ IH]; intros s; simpl.
  - apply sameOn_refl.
  - eapply sameOn_trans; [apply IH | apply Hf].
Qed.

Lemma applyOpts_recognized (opts : list SchemaValidationOption) :
  Forall Recognized opts ->
  forall s, exists s', applyOpts opts s = Returned s'.
Proof.
  intros H; apply applyOpts_non_nil.
  eapply Forall_impl; [|exact H]. intros o Ho; apply Recognized_non_nil; exact Ho.
Qed.

Lemma applyOpts_other_fields F (opts : list SchemaValidationOption) :
  Forall (fun opt => exists F', F' <> F /\ recognizedFor F' opt) opts ->
  forall s, exists s', applyOpts opts s = Returned s' /\ sameOn F s' s.
Proof.
  induction 1 as [|o opts (F' & Hne & Ho) _ IH]; intros s; simpl.
  - exists s; split; [reflexivity | apply sameOn_refl].
  - destruct o as [f|].
    + destruct (IH (f s)) as (s' & Hs' & Hsame).
      exists s'; split; [exact Hs'|].
      eapply sameOn_trans; [exact Hsame|].
      eapply recognizedFor_preserves; eauto.
    + apply recognizedFor_closure in Ho. destruct Ho as (g & Hg & _); discriminate.
Qed.

(** The two direction flags are never both set, from any start where they
    are not, along any sequence of recognized options. *)
Lemma applyOpts_exclusive (opts : list SchemaValidationOption) :
  Forall Recognized opts ->
  forall s, asreq s && asrep s = false ->
  exists s', applyOpts opts s = Returned s' /\ asreq s' && asrep s' = false.
Proof.
  induction 1 as [|o opts [F Ho] _ IH]; intros s Hs; simpl.
  - now exists s.
  - destruct Ho; simpl; apply IH; simpl; auto.
Qed.

Lemma recognized_toggle_cases (t : toggle) (opt : SchemaValidationOption) :
  Recognized opt ->
  exists f, opt = Some f /\
    ((opt = toggleOption t /\ forall s, toggleValue t (f s) = true) \/
     (opt <> toggleOption t /\ forall s, toggleValue t (f s) = toggleValue t s)).
Proof.
  intros [F H]; destruct H; eexists; (split; [reflexivity|]); destruct t; simpl;
    try (left; split; [reflexivity | intros s; reflexivity]);
    right; (split; [intros H; option_clash H | intros s; reflexivity]).
Qed.

(** After a sequence of recognized options a toggle is on exactly when it
    was on before or its own option occurs in the sequence. *)
Lemma applyOpts_toggle (t : toggle) (opts : list SchemaValidationOption) :
  Forall Recognized opts ->
  forall s, exists s',
    applyOpts opts s = Returned s' /\
    (toggleValue t s' = true <->
     toggleValue t s = true \/ In (toggleOption t) opts).
Proof.
  induction 1 as [|o opts Ho _ IH]; intros s; simpl.
  - exists s; split; [reflexivity | tauto].
  - destruct (recognized_toggle_cases t o Ho) as (f & -> & Hcase).
    destruct (IH (f s)) as (s' & Hs' & Hiff).
    exists s'; split; [exact Hs'|]. rewrite Hiff.
    destruct Hcase as [[Heq Hset] | [Hne Hkeep]].
    + rewrite Hset. intuition.
    + rewrite Hkeep. intuition.
Qed.

Lemma recognizedFor_mutates F opt f :
  recognizedFor F opt -> opt = Some f -> exists s, ~ sameOn F s (f s).
Proof.
  intros H; destruct H; intros Hf; injection Hf as <-;
    try (exists zeroSettings; simpl; intuition congruence).
  - destruct resolve as [g|].
    + exists zeroSettings; simpl; congruence.
    + exists (set_customizeSchemaResolve (Some (fun _ w => (None, w))) zeroSettings).
      simpl; congruence.
  - destruct f0 as [g|].
    + exists zeroSettings; simpl; congruence.
    + exists (set_defaultsSet (Some (fun w => w)) zeroSettings).
      simpl; congruence.
  - destruct f0 as [g|].
    + exists zeroSettings; simpl; congruence.
    + exists (set_customizeMessageError (Some (fun _ w => (EmptyString, w))) zeroSettings).
      simpl; congruence.
Qed.

(** No recognized option touches the once-latch. *)
Lemma applyOpts_latch (opts : list SchemaValidationOption) :
  Forall Recognized opts ->
  forall s s', applyOpts opts s = Returned s' ->
  onceSettingDefaults s' = onceSettingDefaults s.
Proof.
  induction 1 as [|o opts [F Ho] _ IH]; intros s s' Hs; simpl in Hs.
  - congruence.
  - apply recognizedFor_closure in Ho. destruct Ho as (f & -> & Hframe & _).
    rewrite (IH _ _ Hs). symmetry; apply (Hframe s).
Qed.

Lemma set_onceSettingDefaults_same s :
  set_onceSettingDefaults (onceSettingDefaults s) s = s.
Proof. destruct s; reflexivity. Qed.

(** One notification, by the state of the callback and of the latch. *)
Lemma notifyDefaultsApplied_run s w :
  notifyDefaultsApplied s w =
  match defaultsSet s with
  | None => mkRun (Returned s) w []
  | Some f =>
      if done (onceSettingDefaults s)
      then mkRun (Returned s) w []
      else mkRun (Returned (set_onceSettingDefaults (mkOnce true) s)) (f w)
                 [CallDefaultsSet]
  end.
Proof.
  unfold notifyDefaultsApplied, Do, bind, ret, callDefaultsSet.
  destruct (defaultsSet s) as [f|]; [|reflexivity].
  destruct (done (onceSettingDefaults s)) eqn:E; simpl.
  - rewrite set_onceSettingDefaults_same; reflexivity.
  - reflexivity.
Qed.

(** [n] notifications in a row: the callback runs during the first one, if
    there is a callback and the latch has not fired, and never again. *)
Lemma notifyTimes_run n :
  forall s w,
    calls (notifyTimes n s w) =
      match n, defaultsSet s with
      | S _, Some _ =>
          if done (onceSettingDefaults s) then [] else [CallDefaultsSet]
      | _, _ => []
      end /\
    world (notifyTimes n s w) =
      match n, defaultsSet s with
      | S _, Some f => if done (onceSettingDefaults s) then w else f w
      | _, _ => w
      end.
Proof.
  induction n as [|n IH]; intros s w.
  - destruct (defaultsSet s); split; reflexivity.
  - simpl notifyTimes. unfold bind. rewrite notifyDefaultsApplied_run.
    destruct (defaultsSet s) as [f|] eqn:Ef.
    + destruct (done (onceSettingDefaults s)) eqn:Ed; simpl.
      * destruct (IH s w) as [Hc Hw]. rewrite Hc, Hw, Ef, Ed.
        destruct n; split; reflexivity.
      * destruct (IH (set_onceSettingDefaults (mkOnce true) s) (f w)) as [Hc Hw].
        rewrite Hc, Hw. simpl. rewrite Ef.
        destruct n; split; reflexivity.
    + simpl. destruct (IH s w) as [Hc Hw]. rewrite Hc, Hw, Ef.
      destruct n; split; reflexivity.
Qed.

(** ** Resolving a schema reference *)

(** C1: on a policy [st] and a schema reference [r], [schemaResolve]
    (1) returns the embedded schema when there is one, without invoking any
    hook; (2) otherwise returns nil when no resolver is configured;
    (3) otherwise, when the reference string is not empty, invokes the
    resolver exactly once, with that string, and returns what it returns;
    (4) and when the reference string is empty returns nil without invoking
    the resolver. *)
Theorem schemaResolve_cases (st : schemaValidationSettings) (r : SchemaRef) (w : World) :
  (forall v, Value r = Some v ->
     schemaResolve (Some st) (Some r) w = mkRun (Returned (Some v)) w []) /\
  (Value r = None -> customizeSchemaResolve st = None ->
     schemaResolve (Some st) (Some r) w = mkRun (Returned None) w []) /\
  (forall resolve,
     Value r = None -> customizeSchemaResolve st = Some resolve -> Ref r <> "" ->
     schemaResolve (Some st) (Some r) w =
       mkRun (Returned (fst (resolve (Ref r) w))) (snd (resolve (Ref r) w))
             [CallSchemaResolve (Ref r)]) /\
  (forall resolve,
     Value r = None -> customizeSchemaResolve st = Some resolve -> Ref r = "" ->
     schemaResolve (Some st) (Some r) w = mkRun (Returned None) w []).
Proof.
  unfold schemaResolve, bind, deref, ret; simpl.
  repeat split.
  - intros v Hv; rewrite Hv; reflexivity.
  - intros Hv Hc; rewrite Hv; simpl; rewrite Hc; reflexivity.
  - intros resolve Hv Hc Hr; rewrite Hv; simpl; rewrite Hc.
    destruct (Ref r) as [|c ref] eqn:E; [congruence|].
    simpl. unfold callSchemaResolve.
    destruct (resolve (String c ref) w) as [v w']; reflexivity.
  - intros resolve Hv Hc Hr; rewrite Hv; simpl; rewrite Hc, Hr; reflexivity.
Qed.

(** C10: [schemaResolve] reads [schemaRef.Value] before anything else and
    without a nil check: on a nil [schemaRef] it panics with a nil
    dereference, whatever the receiver, before any hook is invoked; on a
    non-nil [schemaRef] (and a non-nil receiver) it returns. *)
Theorem schemaResolve_nil_argument :
  (forall s w,
     schemaResolve s None w = mkRun (Panicked NilDereference) w []) /\
  (forall st r w,
     exists value, result (schemaResolve (Some st) (Some r) w) = Returned value).
Proof.
  split.
  - intros s w; reflexivity.
  - intros st r w. unfold schemaResolve, bind, deref, ret; simpl.
    destruct (Value r) as [v|]; simpl; [now eexists|].
    destruct (customizeSchemaResolve st) as [resolve|]; simpl; [|now eexists].
    destruct (0 <? String.length (Ref r))%nat; simpl; [|now eexists].
    unfold callSchemaResolve.
    destruct (resolve (Ref r) w) as [v w']; simpl; now eexists.
Qed.

(** ** Construction *)

(** C9: constructing a policy from no option at all yields the zero-valued
    settings: the nine boolean fields are false, the once-latch has not
    fired, and the three hooks are nil. *)
Theorem newSchemaValidationSettings_empty :
  exists s,
    newSchemaValidationSettings [] = Returned s /\
    failfast s = false /\
    multiError s = false /\
    asreq s = false /\
    asrep s = false /\
    formatValidationEnabled s = false /\
    unknownPropertyValidationEnabled s = false /\
    patternValidationDisabled s = false /\
    readOnlyValidationDisabled s = false /\
    writeOnlyValidationDisabled s = false /\
    done (onceSettingDefaults s) = false /\
    defaultsSet s = None /\
    customizeMessageError s = None /\
    customizeSchemaResolve s = None.
Proof.
  exists zeroSettings. repeat split.
Qed.

(** C8, amended: construction returns a settings object for every sequence
    of option values built by the package's option constructors: their
    closures are plain field assignments and the options are only applied,
    never inspected.  It does not for every value of the option type: the
    loop calls each option unguarded, so a nil option reached after
    constructor-built ones makes construction panic with a nil dereference,
    whatever follows it. *)
Theorem newSchemaValidationSettings_returns (opts : list SchemaValidationOption) :
  (Forall Recognized opts ->
   exists s, newSchemaValidationSettings opts = Returned s) /\
  (forall post,
     Forall Recognized opts ->
     newSchemaValidationSettings (opts ++ None :: post) = Panicked NilDereference).
Proof.
  split.
  - intros H. apply applyOpts_recognized; exact H.
  - intros post H. unfold newSchemaValidationSettings. rewrite applyOpts_app.
    destruct (applyOpts_recognized _ H zeroSettings) as [s ->]. reflexivity.
Qed.

(** C3: along every sequence of recognized options the constructed policy
    never has [asreq] and [asrep] both set; and validate-as-request followed
    by validate-as-response, after any such sequence, leaves the direction
    at response only. *)
Theorem direction_exclusive (opts : list SchemaValidationOption) :
  Forall Recognized opts ->
  (exists s,
     newSchemaValidationSettings opts = Returned s /\
     asreq s && asrep s = false) /\
  (exists s,
     newSchemaValidationSettings (opts ++ [VisitAsRequest; VisitAsResponse]) = Returned s /\
     asreq s = false /\ asrep s = true).
Proof.
  intros H. split.
  - apply applyOpts_exclusive; [exact H | reflexivity].
  - unfold newSchemaValidationSettings. rewrite applyOpts_app.
    destruct (applyOpts_recognized _ H zeroSettings) as [s1 ->].
    simpl. eexists; split; [reflexivity|]. simpl; auto.
Qed.

(** C4: construction applies the options in list order to the zero-valued
    settings.  Hence (1) the policy is the left-to-right composition of the
    closures on the zero value; (2) the value of a logical field is the one
    assigned by the last closure that assigns it, whatever earlier closures
    did to that field; (3) a field no closure touches keeps its zero value;
    and (4) for the package's options: among options for the same field, the
    last one in the list determines the field. *)
Theorem later_option_wins :
  (forall fs : list (schemaValidationSettings -> schemaValidationSettings),
     exists s,
       newSchemaValidationSettings (map Some fs) = Returned s /\
       s = fold_left (fun acc f => f acc) fs zeroSettings /\
       (forall F pre f post,
          fs = pre ++ f :: post -> assigns F f -> Forall (preserves F) post ->
          forall s0, sameOn F s (f s0)) /\
       (forall F, Forall (preserves F) fs -> sameOn F s zeroSettings)) /\
  (forall F pre opt f post,
     Forall Recognized pre ->
     recognizedFor F opt -> opt = Some f ->
     Forall (fun opt' => exists F', F' <> F /\ recognizedFor F' opt') post ->
     exists s,
       newSchemaValidationSettings (pre ++ opt :: post) = Returned s /\
       forall s0, sameOn F s (f s0)).
Proof.
  split.
  - intros fs. eexists. split; [apply applyOpts_closures|].
    split; [reflexivity|]. split.
    + intros F pre f post -> Hassign Hpost s0.
      rewrite fold_left_app; simpl.
      eapply sameOn_trans; [apply fold_preserves; exact Hpost | apply Hassign].
    + intros F Hfs. apply fold_preserves; exact Hfs.
  - intros F pre opt f post Hpre Hopt -> Hpost.
    unfold newSchemaValidationSettings. rewrite applyOpts_app.
    destruct (applyOpts_recognized _ Hpre zeroSettings) as [s1 ->].
    simpl.
    destruct (applyOpts_other_fields _ _ Hpost (f s1)) as (s & Hs & Hsame).
    exists s; split; [exact Hs|]. intros s0.
    eapply sameOn_trans; [exact Hsame|].
    apply recognizedFor_closure in Hopt.
    destruct Hopt as (g & Hg & _ & Hassign).
    assert (g = f) by congruence; subst g. apply Hassign.
Qed.

(** C5: (1) the closure of a recognized option writes its own logical field
    (one field, or the [asreq]/[asrep] pair for the two direction options):
    it changes that field on some settings, and on all settings leaves every
    other logical field and the once-latch as they were; (2) hence, after
    construction from any sequence of recognized options, each of the seven
    independent boolean toggles is on exactly when its own option occurs in
    the sequence, whatever other options occur. *)
Theorem option_frame :
  (forall F opt,
     recognizedFor F opt ->
     exists f,
       opt = Some f /\
       (forall s, unchangedOutside F s (f s)) /\
       (exists s, ~ sameOn F s (f s))) /\
  (forall opts,
     Forall Recognized opts ->
     exists s,
       newSchemaValidationSettings opts = Returned s /\
       (failfast s = true <-> In FailFast opts) /\
       (multiError s = true <-> In MultiErrors opts) /\
       (formatValidationEnabled s = true <-> In EnableFormatValidation opts) /\
       (unknownPropertyValidationEnabled s = true <->
          In EnableUnknownPropertyValidation opts) /\
       (patternValidationDisabled s = true <-> In DisablePatternValidation opts) /\
       (readOnlyValidationDisabled s = true <-> In DisableReadOnlyValidation opts) /\
       (writeOnlyValidationDisabled s = true <-> In DisableWriteOnlyValidation opts)).
Proof.
  split.
  - intros F opt H.
    destruct (recognizedFor_closure _ _ H) as (f & Hf & Hframe & _).
    exists f; repeat split; try apply Hframe; try exact Hf.
    eapply recognizedFor_mutates; eauto.
  - intros opts H.
    destruct (applyOpts_recognized _ H zeroSettings) as [s Hs].
    exists s; split; [exact Hs|].
    assert (Ht : forall t, toggleValue t s = true <-> In (toggleOption t) opts).
    { intros t. destruct (applyOpts_toggle t _ H zeroSettings) as (s' & Hs' & Hiff).
      unfold newSchemaValidationSettings in Hs.
      assert (s' = s) by congruence; subst s'.
      rewrite Hiff. destruct t; simpl; intuition discriminate. }
    repeat split;
      first [ apply (Ht TFailfast) | apply (Ht TMultiError) | apply (Ht TFormat)
            | apply (Ht TUnknownProperty) | apply (Ht TPattern)
            | apply (Ht TReadOnly) | apply (Ht TWriteOnly) ].
Qed.

(** ** Operations of the validator *)

(** C2: (1) on any policy, in any state of its latch, any number of
    notifications in sequence executes the defaults-applied callback at most
    once; (2) on a policy constructed from recognized options with a
    callback [f] configured, three notifications in sequence execute it
    exactly once: one invocation is recorded and the world is [f w]. *)
Theorem defaultsSet_runs_once :
  (forall s w n,
     defaultsExecutions (calls (notifyTimes n s w)) <= 1) /\
  (forall opts s f w,
     Forall Recognized opts ->
     newSchemaValidationSettings opts = Returned s ->
     defaultsSet s = Some f ->
     defaultsExecutions (calls (notifyTimes 3 s w)) = 1 /\
     world (notifyTimes 3 s w) = f w).
Proof.
  split.
  - intros s w n. destruct (notifyTimes_run n s w) as [-> _].
    unfold defaultsExecutions.
    destruct n; [destruct (defaultsSet s); simpl; lia|].
    destruct (defaultsSet s); [|simpl; lia].
    destruct (done (onceSettingDefaults s)); simpl; lia.
  - intros opts s f w Hopts Hs Hf.
    assert (Hd : done (onceSettingDefaults s) = false).
    { unfold newSchemaValidationSettings in Hs.
      rewrite (applyOpts_latch _ Hopts _ _ Hs); reflexivity. }
    destruct (notifyTimes_run 3 s w) as [-> ->].
    rewrite Hf, Hd. split; reflexivity.
Qed.

(** C7: the rendered message is the validator's default rendering when no
    customizer is configured, or when the customizer returns the empty
    string for the error; otherwise it is the non-empty string the
    customizer returns. *)
Theorem formatErrorMessage_cases (s : schemaValidationSettings) (err : SchemaError) (w : World) :
  (customizeMessageError s = None ->
     formatErrorMessage s err w = mkRun (Returned (defaultError err)) w []) /\
  (forall customize,
     customizeMessageError s = Some customize ->
     fst (customize err w) = "" ->
     result (formatErrorMessage s err w) = Returned (defaultError err)) /\
  (forall customize,
     customizeMessageError s = Some customize ->
     fst (customize err w) <> "" ->
     result (formatErrorMessage s err w) = Returned (fst (customize err w))).
Proof.
  unfold formatErrorMessage, bind, callMessageError, ret.
  repeat split.
  - intros ->; reflexivity.
  - intros customize -> Hmsg.
    destruct (customize err w) as [msg w']; simpl in *; subst msg; reflexivity.
  - intros customize -> Hmsg.
    destruct (customize err w) as [msg w']; simpl in *.
    destruct (String.eqb msg "") eqn:E; [|reflexivity].
    apply String.eqb_eq in E; contradiction.
Qed.

(** ** Further properties of the options and of construction *)

Lemma settings_ext (s s' : schemaValidationSettings) :
  failfast s = failfast s' ->
  multiError s = multiError s' ->
  asreq s = asreq s' ->
  asrep s = asrep s' ->
  formatValidationEnabled s = formatValidationEnabled s' ->
  unknownPropertyValidationEnabled s = unknownPropertyValidationEnabled s' ->
  patternValidationDisabled s = patternValidationDisabled s' ->
  readOnlyValidationDisabled s = readOnlyValidationDisabled s' ->
  writeOnlyValidationDisabled s = writeOnlyValidationDisabled s' ->
  onceSettingDefaults s = onceSettingDefaults s' ->
  defaultsSet s = defaultsSet s' ->
  customizeMessageError s = customizeMessageError s' ->
  customizeSchemaResolve s = customizeSchemaResolve s' ->
  s = s'.
Proof. destruct s, s'; simpl; intros; subst; reflexivity. Qed.

Lemma recognizedFor_idempotent F opt f :
  recognizedFor F opt -> opt = Some f -> forall s, f (f s) = f s.
Proof.
  intros H; destruct H; intros Hf; injection Hf as <-; intros s; reflexivity.
Qed.

Lemma recognizedFor_commute F1 F2 opt1 opt2 f1 f2 :
  recognizedFor F1 opt1 -> recognizedFor F2 opt2 -> F1 <> F2 ->
  opt1 = Some f1 -> opt2 = Some f2 ->
  forall s, f1 (f2 s) = f2 (f1 s).
Proof.
  intros H1 H2 Hne E1 E2.
  destruct H1; destruct H2; try congruence;
    injection E1 as <-; injection E2 as <-; intros s; reflexivity.
Qed.

(** After a sequence of recognized options a direction flag is set exactly
    when one was set before or a direction option occurs in the sequence. *)
Lemma applyOpts_direction (opts : list SchemaValidationOption) :
  Forall Recognized opts ->
  forall s, exists s',
    applyOpts opts s = Returned s' /\
    (asreq s' || asrep s' = true <->
     asreq s || asrep s = true \/ In VisitAsRequest opts \/ In VisitAsResponse opts).
Proof.
  induction 1 as [|o opts [F Ho] _ IH]; intros s.
  - exists s; split; [reflexivity | simpl; tauto].
  - destruct Ho; simpl applyOpts;
      match goal with
      | |- exists s', applyOpts _ ?s1 = _ /\ _ =>
          destruct (IH s1) as (s' & Hs' & Hiff)
      end;
      exists s'; (split; [exact Hs'|]); rewrite Hiff; simpl;
      (split;
       [ intuition auto
       | intros [H|[[H|H]|[H|H]]]; auto;
         try (exfalso; option_clash H) ]).
Qed.

(** A hook that is set after a sequence of recognized options was set before
    it or is the argument of one of its setters in the sequence. *)
Lemma applyOpts_hooks (opts : list SchemaValidationOption) :
  Forall Recognized opts ->
  forall s, exists s',
    applyOpts opts s = Returned s' /\
    (forall f, defaultsSet s' = Some f ->
       defaultsSet s = Some f \/ In (DefaultsSet (Some f)) opts) /\
    (forall f, customizeMessageError s' = Some f ->
       customizeMessageError s = Some f \/
       In (SetSchemaErrorMessageCustomizer (Some f)) opts) /\
    (forall f, customizeSchemaResolve s' = Some f ->
       customizeSchemaResolve s = Some f \/
       In (SetCustomizeSchemaResolve (Some f)) opts).
Proof.
  induction 1 as [|o opts [F Ho] _ IH]; intros s.
  - exists s; split; [reflexivity | auto].
  - destruct Ho; simpl applyOpts;
      match goal with
      | |- exists s', applyOpts _ ?s1 = _ /\ _ =>
          destruct (IH s1) as (s' & Hs' & Hd & Hm & Hr)
      end;
      exists s'; (split; [exact Hs'|]);
      (split; [|split]); intros g Hg;
      first [ destruct (Hd g Hg) as [H|H] | destruct (Hm g Hg) as [H|H]
            | destruct (Hr g Hg) as [H|H] ];
      simpl in H; simpl; auto;
      subst; auto.
Qed.

Lemma schemaResolve_run (st : schemaValidationSettings) (r : SchemaRef) (w : World) :
  schemaResolve (Some st) (Some r) w =
  match Value r, customizeSchemaResolve st with
  | Some v, _ => mkRun (Returned (Some v)) w []
  | None, None => mkRun (Returned None) w []
  | None, Some resolve =>
      if (0 <? String.length (Ref r))%nat
      then mkRun (Returned (fst (resolve (Ref r) w))) (snd (resolve (Ref r) w))
                 [CallSchemaResolve (Ref r)]
      else mkRun (Returned None) w []
  end.
Proof.
  unfold schemaResolve, bind, deref, ret; simpl.
  destruct (Value r) as [v|]; simpl; [reflexivity|].
  destruct (customizeSchemaResolve st) as [resolve|]; simpl; [|reflexivity].
  destruct (0 <? String.length (Ref r))%nat; simpl; [|reflexivity].
  unfold callSchemaResolve. destruct (resolve (Ref r) w); reflexivity.
Qed.

(** X1: a recognized option is idempotent: listing it twice in a row builds
    the same policy as listing it once, whatever surrounds it. *)
Theorem repeated_option_is_idle (pre post : list SchemaValidationOption)
    (opt : SchemaValidationOption) :
  Recognized opt ->
  newSchemaValidationSettings (pre ++ opt :: opt :: post) =
  newSchemaValidationSettings (pre ++ opt :: post).
Proof.
  intros [F H]. unfold newSchemaValidationSettings. rewrite !applyOpts_app.
  destruct (applyOpts pre zeroSettings) as [s|p]; [|reflexivity].
  destruct (recognizedFor_closure _ _ H) as (f & Hf & _). subst opt. simpl.
  rewrite (recognizedFor_idempotent _ _ f H eq_refl). reflexivity.
Qed.

(** X2: two recognized options for different logical fields commute:
    exchanging them where they are adjacent in the list builds the same
    policy. *)
Theorem unrelated_options_commute (pre post : list SchemaValidationOption)
    (F1 F2 : field) (opt1 opt2 : SchemaValidationOption) :
  recognizedFor F1 opt1 -> recognizedFor F2 opt2 -> F1 <> F2 ->
  newSchemaValidationSettings (pre ++ opt1 :: opt2 :: post) =
  newSchemaValidationSettings (pre ++ opt2 :: opt1 :: post).
Proof.
  intros H1 H2 Hne. unfold newSchemaValidationSettings. rewrite !applyOpts_app.
  destruct (applyOpts pre zeroSettings) as [s|p]; [|reflexivity].
  destruct (recognizedFor_closure _ _ H1) as (f1 & Hf1 & _).
  destruct (recognizedFor_closure _ _ H2) as (f2 & Hf2 & _).
  subst opt1 opt2. simpl.
  rewrite (recognizedFor_commute _ _ _ _ f1 f2 H1 H2 Hne eq_refl eq_refl).
  reflexivity.
Qed.

(** X3: after construction from recognized options exactly one of [asreq]
    and [asrep] is set when a direction option occurs in the list, and
    neither is set when none occurs (the zero value of the pair). *)
Theorem direction_set_iff_selected (opts : list SchemaValidationOption) :
  Forall Recognized opts ->
  exists s,
    newSchemaValidationSettings opts = Returned s /\
    (xorb (asreq s) (asrep s) = true <->
     In VisitAsRequest opts \/ In VisitAsResponse opts) /\
    (asreq s = false /\ asrep s = false <->
     ~ (In VisitAsRequest opts \/ In VisitAsResponse opts)).
Proof.
  intros H.
  destruct (applyOpts_direction _ H zeroSettings) as (s & Hs & Hiff).
  destruct (applyOpts_exclusive _ H zeroSettings eq_refl) as (s' & Hs' & Hex).
  assert (s' = s) by congruence; subst s'.
  exists s; split; [exact Hs|]. simpl in Hiff.
  destruct (asreq s), (asrep s); simpl in *; try discriminate;
    intuition discriminate.
Qed.

(** X4: options never clear a toggle: a policy built from a list extended
    by further recognized options has every toggle on that the policy built
    from the list itself has on. *)
Theorem toggles_are_never_cleared (pre post : list SchemaValidationOption)
    (s1 : schemaValidationSettings) :
  Forall Recognized post ->
  newSchemaValidationSettings pre = Returned s1 ->
  exists s,
    newSchemaValidationSettings (pre ++ post) = Returned s /\
    (failfast s1 = true -> failfast s = true) /\
    (multiError s1 = true -> multiError s = true) /\
    (formatValidationEnabled s1 = true -> formatValidationEnabled s = true) /\
    (unknownPropertyValidationEnabled s1 = true ->
       unknownPropertyValidationEnabled s = true) /\
    (patternValidationDisabled s1 = true -> patternValidationDisabled s = true) /\
    (readOnlyValidationDisabled s1 = true -> readOnlyValidationDisabled s = true) /\
    (writeOnlyValidationDisabled s1 = true -> writeOnlyValidationDisabled s = true).
Proof.
  intros Hpost Hpre. unfold newSchemaValidationSettings in *.
  rewrite applyOpts_app, Hpre.
  destruct (applyOpts_recognized _ Hpost s1) as [s Hs].
  exists s; split; [exact Hs|].
  assert (Ht : forall t, toggleValue t s1 = true -> toggleValue t s = true).
  { intros t Hon. destruct (applyOpts_toggle t _ Hpost s1) as (s' & Hs' & Hiff).
    assert (s' = s) by congruence; subst s'. apply Hiff; left; exact Hon. }
  repeat split;
    first [ apply (Ht TFailfast) | apply (Ht TMultiError) | apply (Ht TFormat)
          | apply (Ht TUnknownProperty) | apply (Ht TPattern)
          | apply (Ht TReadOnly) | apply (Ht TWriteOnly) ].
Qed.

(** X5: a policy built from recognized options has a hook only if the
    hook's own setter occurs in the list with that hook as argument; and its
    once-latch has not fired. *)
Theorem hooks_come_from_their_setters (opts : list SchemaValidationOption) :
  Forall Recognized opts ->
  exists s,
    newSchemaValidationSettings opts = Returned s /\
    (forall f, defaultsSet s = Some f -> In (DefaultsSet (Some f)) opts) /\
    (forall f, customizeMessageError s = Some f ->
       In (SetSchemaErrorMessageCustomizer (Some f)) opts) /\
    (forall f, customizeSchemaResolve s = Some f ->
       In (SetCustomizeSchemaResolve (Some f)) opts) /\
    done (onceSettingDefaults s) = false.
Proof.
  intros H.
  destruct (applyOpts_hooks _ H zeroSettings) as (s & Hs & Hd & Hm & Hr).
  exists s; split; [exact Hs|].
  repeat split.
  - intros f Hf. destruct (Hd f Hf) as [E|E]; [discriminate E | exact E].
  - intros f Hf. destruct (Hm f Hf) as [E|E]; [discriminate E | exact E].
  - intros f Hf. destruct (Hr f Hf) as [E|E]; [discriminate E | exact E].
  - rewrite (applyOpts_latch _ H _ _ Hs). reflexivity.
Qed.

(** X6: for lists made of the seven toggle options only, the policy depends
    on which options occur, not on their order or multiplicity. *)
Theorem toggle_lists_order_insensitive (opts1 opts2 : list SchemaValidationOption) :
  Forall (fun opt => exists t, opt = toggleOption t) opts1 ->
  Forall (fun opt => exists t, opt = toggleOption t) opts2 ->
  (forall t, In (toggleOption t) opts1 <-> In (toggleOption t) opts2) ->
  newSchemaValidationSettings opts1 = newSchemaValidationSettings opts2.
Proof.
  assert (Hrec : forall t, exists F,
             recognizedFor F (toggleOption t) /\ F <> DirectionField /\
             F <> DefaultsSetField /\ F <> MessageErrorField /\
             F <> SchemaResolveField).
  { intros t; destruct t; simpl; eexists; (split; [constructor|]);
      repeat split; discriminate. }
  assert (Hshape : forall opts,
             Forall (fun opt => exists t, opt = toggleOption t) opts ->
             exists s,
               newSchemaValidationSettings opts = Returned s /\
               (forall t, toggleValue t s = true <-> In (toggleOption t) opts) /\
               asreq s = false /\ asrep s = false /\
               onceSettingDefaults s = mkOnce false /\
               defaultsSet s = None /\ customizeMessageError s = None /\
               customizeSchemaResolve s = None).
  { intros opts Hopts.
    assert (HR : Forall Recognized opts).
    { eapply Forall_impl; [|exact Hopts]. intros o [t ->].
      destruct (Hrec t) as (F & HF & _). exists F; exact HF. }
    assert (Hother : forall F0,
               F0 = DirectionField \/ F0 = DefaultsSetField \/
               F0 = MessageErrorField \/ F0 = SchemaResolveField ->
               Forall (fun opt => exists F', F' <> F0 /\ recognizedFor F' opt) opts).
    { intros F0 HF0. eapply Forall_impl; [|exact Hopts]. intros o [t ->].
      destruct (Hrec t) as (F & HF & H1 & H2 & H3 & H4).
      exists F; split; [|exact HF]. intuition congruence. }
    destruct (applyOpts_recognized _ HR zeroSettings) as [s Hs].
    exists s; split; [exact Hs|]. split.
    { intros t. destruct (applyOpts_toggle t _ HR zeroSettings) as (s' & Hs' & Hiff).
      assert (s' = s) by congruence; subst s'.
      rewrite Hiff. destruct t; simpl; intuition discriminate. }
    assert (Hsame : forall F0,
               F0 = DirectionField \/ F0 = DefaultsSetField \/
               F0 = MessageErrorField \/ F0 = SchemaResolveField ->
               sameOn F0 s zeroSettings).
    { intros F0 HF0.
      destruct (applyOpts_other_fields F0 _ (Hother F0 HF0) zeroSettings)
        as (s' & Hs' & Hsame).
      assert (s' = s) by congruence; subst s'. exact Hsame. }
    pose proof (Hsame DirectionField (or_introl eq_refl)) as [Hq Hp].
    pose proof (Hsame DefaultsSetField (or_intror (or_introl eq_refl))) as Hd.
    pose proof (Hsame MessageErrorField
                  (or_intror (or_intror (or_introl eq_refl)))) as Hm.
    pose proof (Hsame SchemaResolveField
                  (or_intror (or_intror (or_intror eq_refl)))) as Hr.
    simpl in Hq, Hp, Hd, Hm, Hr.
    repeat split; auto.
    rewrite (applyOpts_latch _ HR _ _ Hs). reflexivity. }
  intros H1 H2 Hmem.
  destruct (Hshape _ H1) as (s1 & -> & Ht1 & Hq1 & Hp1 & Ho1 & Hd1 & Hm1 & Hr1).
  destruct (Hshape _ H2) as (s2 & -> & Ht2 & Hq2 & Hp2 & Ho2 & Hd2 & Hm2 & Hr2).
  assert (Ht : forall t, toggleValue t s1 = toggleValue t s2).
  { intros t. specialize (Ht1 t). specialize (Ht2 t). specialize (Hmem t).
    destruct (toggleValue t s1), (toggleValue t s2); try reflexivity.
    - symmetry; apply Ht2, Hmem, Ht1; reflexivity.
    - apply Ht1, Hmem, Ht2; reflexivity. }
  f_equal. apply settings_ext; try congruence.
  - apply (Ht TFailfast).
  - apply (Ht TMultiError).
  - apply (Ht TFormat).
  - apply (Ht TUnknownProperty).
  - apply (Ht TPattern).
  - apply (Ht TReadOnly).
  - apply (Ht TWriteOnly).
Qed.

(** ** Further properties of [schemaResolve] *)

(** X7: [schemaResolve] panics exactly when the schema reference is nil, or
    the receiver is nil and the reference carries no embedded schema (a nil
    receiver is harmless when the embedded schema is there); when it panics
    no hook has been invoked and the world is untouched. *)
Theorem schemaResolve_panics_iff (s : option schemaValidationSettings)
    (schemaRef : option SchemaRef) (w : World) :
  (result (schemaResolve s schemaRef w) = Panicked NilDereference <->
   schemaRef = None \/
   (s = None /\ exists r, schemaRef = Some r /\ Value r = None)) /\
  (result (schemaResolve s schemaRef w) = Panicked NilDereference ->
   calls (schemaResolve s schemaRef w) = [] /\
   world (schemaResolve s schemaRef w) = w).
Proof.
  destruct schemaRef as [r|].
  - destruct s as [st|].
    + rewrite schemaResolve_run.
      destruct (Value r) as [v|] eqn:Ev.
      * simpl. split; [split|]; try discriminate.
        intros [H|(H & _)]; discriminate H.
      * destruct (customizeSchemaResolve st) as [g|];
          [destruct (0 <? String.length (Ref r))%nat|]; simpl;
          (split; [split|]; try discriminate;
           intros [H|(H & _)]; discriminate H).
    + unfold schemaResolve, bind, deref, ret, raise; simpl.
      destruct (Value r) as [v|] eqn:Ev; simpl.
      * split; [split|]; try discriminate.
        intros [H|(_ & r' & Hr' & Hv)]; [discriminate H|].
        injection Hr' as <-. congruence.
      * split; [split|]; auto.
        intros _. right. split; [reflexivity|]. exists r; auto.
  - split; [split|]; simpl; auto.
Qed.

(** X8: [schemaResolve] reads no setting but the resolver: applying a
    recognized option for any other logical field to the policy changes
    nothing in what [schemaResolve] does. *)
Theorem schemaResolve_ignores_other_options (F : field)
    (opt : SchemaValidationOption)
    (f : schemaValidationSettings -> schemaValidationSettings) :
  recognizedFor F opt -> F <> SchemaResolveField -> opt = Some f ->
  forall s schemaRef w,
    schemaResolve (Some (f s)) schemaRef w = schemaResolve (Some s) schemaRef w.
Proof.
  intros H Hne Hf. destruct H; try congruence;
    injection Hf as <-; intros s schemaRef w; reflexivity.
Qed.

(** X9: a policy constructed with [SetCustomizeSchemaResolve resolve] as its
    last resolver option resolves a reference without embedded schema
    through [resolve]: a non-nil [resolve] is invoked on a non-empty
    reference string and its answer returned; a nil [resolve] switches an
    earlier resolver off. *)
Theorem constructed_policy_resolves (pre post : list SchemaValidationOption)
    (resolve : option resolveHook) (r : SchemaRef) (w : World) :
  Forall Recognized pre ->
  Forall (fun opt => exists F', F' <> SchemaResolveField /\ recognizedFor F' opt) post ->
  Value r = None ->
  exists s,
    newSchemaValidationSettings (pre ++ SetCustomizeSchemaResolve resolve :: post)
      = Returned s /\
    (forall g, resolve = Some g -> Ref r <> "" ->
       schemaResolve (Some s) (Some r) w =
         mkRun (Returned (fst (g (Ref r) w))) (snd (g (Ref r) w))
               [CallSchemaResolve (Ref r)]) /\
    (resolve = None ->
       schemaResolve (Some s) (Some r) w = mkRun (Returned None) w []).
Proof.
  intros Hpre Hpost Hv.
  unfold newSchemaValidationSettings. rewrite applyOpts_app.
  destruct (applyOpts_recognized _ Hpre zeroSettings) as [s1 ->].
  simpl.
  destruct (applyOpts_other_fields _ _ Hpost (set_customizeSchemaResolve resolve s1))
    as (s & Hs & Hsame).
  exists s; split; [exact Hs|]. simpl in Hsame.
  rewrite schemaResolve_run, Hv, Hsame. split.
  - intros g -> Hr. destruct (Ref r) as [|c ref]; [congruence | reflexivity].
  - intros ->; reflexivity.
Qed.

(** X10: a policy constructed from recognized options none of which sets a
    non-nil resolver leaves every reference without embedded schema
    unresolved, invoking nothing. *)
Theorem policy_without_resolver (opts : list SchemaValidationOption)
    (r : SchemaRef) (w : World) :
  Forall Recognized opts ->
  (forall g, ~ In (SetCustomizeSchemaResolve (Some g)) opts) ->
  Value r = None ->
  exists s,
    newSchemaValidationSettings opts = Returned s /\
    schemaResolve (Some s) (Some r) w = mkRun (Returned None) w [].
Proof.
  intros H Hno Hv.
  destruct (applyOpts_hooks _ H zeroSettings) as (s & Hs & _ & _ & Hr).
  exists s; split; [exact Hs|].
  rewrite schemaResolve_run, Hv.
  destruct (customizeSchemaResolve s) as [g|] eqn:Eg; [|reflexivity].
  destruct (Hr g eq_refl) as [E|E]; [discriminate E | destruct (Hno g E)].
Qed.

End Settings.

Arguments mkSchemaRef {Schema} Ref Value.
Arguments mkRun {SchemaError World A} result world calls.
Arguments result {SchemaError World A} r.
Arguments world {SchemaError World A} r.
Arguments calls {SchemaError World A} r.
Arguments CallSchemaResolve {SchemaError} ref.
Arguments CallDefaultsSet {SchemaError}.
Arguments CallMessageError {SchemaError} err.
Arguments zeroSettings {Schema SchemaError World}.
Arguments failfast {Schema SchemaError World} s.
Arguments multiError {Schema SchemaError World} s.
Arguments asreq {Schema SchemaError World} s.
Arguments asrep {Schema SchemaError World} s.
Arguments formatValidationEnabled {Schema SchemaError World} s.
Arguments unknownPropertyValidationEnabled {Schema SchemaError World} s.
Arguments patternValidationDisabled {Schema SchemaError World} s.
Arguments readOnlyValidationDisabled {Schema SchemaError World} s.
Arguments writeOnlyValidationDisabled {Schema SchemaError World} s.
Arguments defaultsSet {Schema SchemaError World} s.
Arguments set_defaultsSet {Schema SchemaError World} v s.
Arguments set_customizeMessageError {Schema SchemaError World} v s.
Arguments set_customizeSchemaResolve {Schema SchemaError World} v s.
Arguments schemaResolve {Schema SchemaError World} s schemaRef.
Arguments SetCustomizeSchemaResolve {Schema SchemaError World} resolve.
Arguments FailFast {Schema SchemaError World}.
Arguments MultiErrors {Schema SchemaError World}.
Arguments VisitAsRequest {Schema SchemaError World}.
Arguments VisitAsResponse {Schema SchemaError World}.
Arguments EnableUnknownPropertyValidation {Schema SchemaError World}.
Arguments EnableFormatValidation {Schema SchemaError World}.
Arguments DisablePatternValidation {Schema SchemaError World}.
Arguments DisableReadOnlyValidation {Schema SchemaError World}.
Arguments DisableWriteOnlyValidation {Schema SchemaError World}.
Arguments DefaultsSet {Schema SchemaError World} f.
Arguments SetSchemaErrorMessageCustomizer {Schema SchemaError World} f.
Arguments newSchemaValidationSettings {Schema SchemaError World} opts.
Arguments Recognized {Schema SchemaError World} opt.
Arguments recognizedFor {Schema SchemaError World} _ opt.
Arguments sameOn {Schema SchemaError World} F s s'.
Arguments notifyTimes {Schema SchemaError World} n s.
Arguments defaultsExecutions {SchemaError} t.
Arguments formatErrorMessage {Schema SchemaError World} defaultError s err.

(** * Worked instances

    Schemas are names, schema errors are numbers, the world counts side
    effects. *)

(** A resolver that knows the Pet schema is asked for it and its answer is
    returned; an embedded schema is returned without asking the resolver. *)
Lemma schemaResolve_cases_witness :
  schemaResolve
    (Some (set_customizeSchemaResolve (Some petResolver) (@zeroSettings string nat nat)))
    (Some (mkSchemaRef "#/components/schemas/Pet" None)) 0 =
  mkRun (Returned (Some "Pet")) 1 [CallSchemaResolve "#/components/schemas/Pet"] /\
  schemaResolve
    (Some (set_customizeSchemaResolve (Some petResolver) (@zeroSettings string nat nat)))
    (Some (mkSchemaRef "#/components/schemas/Pet" (Some "Cat"))) 0 =
  mkRun (Returned (Some "Cat")) 0 [].
Proof.
  split.
  - apply (proj1 (proj2 (proj2
      (schemaResolve_cases string nat nat
         (set_customizeSchemaResolve (Some petResolver) (@zeroSettings string nat nat))
         (mkSchemaRef "#/components/schemas/Pet" None) 0))) petResolver);
      [reflexivity | reflexivity | discriminate].
  - apply (proj1
      (schemaResolve_cases string nat nat
         (set_customizeSchemaResolve (Some petResolver) (@zeroSettings string nat nat))
         (mkSchemaRef "#/components/schemas/Pet" (Some "Cat")) 0) "Cat").
    reflexivity.
Defined.

(** C8 as stated fails: a nil option value in the sequence makes construction
    panic, so no settings object is returned. *)
Lemma newSchemaValidationSettings_nil_option :
  ~ exists s,
      @newSchemaValidationSettings string nat nat [FailFast; None; MultiErrors] = Returned s.
Proof.
  intros [s Hs]. discriminate Hs.
Qed.

Lemma newSchemaValidationSettings_returns_witness :
  Forall Recognized [@FailFast string nat nat; DefaultsSet None] /\
  (exists s, newSchemaValidationSettings [@FailFast string nat nat; DefaultsSet None] = Returned s) /\
  newSchemaValidationSettings
    ([@FailFast string nat nat; DefaultsSet None] ++ None :: [MultiErrors])
    = Panicked NilDereference.
Proof.
  assert (H : Forall Recognized [@FailFast string nat nat; DefaultsSet None]).
  { repeat (constructor; [eexists; constructor|]). constructor. }
  split; [exact H|]. split.
  - apply (proj1 (newSchemaValidationSettings_returns string nat nat
                    [@FailFast string nat nat; DefaultsSet None]) H).
  - apply (proj2 (newSchemaValidationSettings_returns string nat nat
                    [@FailFast string nat nat; DefaultsSet None]) [MultiErrors] H).
Defined.

Lemma direction_exclusive_witness :
  Forall Recognized [@FailFast string nat nat; VisitAsResponse; VisitAsRequest] /\
  (exists s,
     newSchemaValidationSettings [@FailFast string nat nat; VisitAsResponse; VisitAsRequest]
       = Returned s /\
     asreq s && asrep s = false) /\
  (exists s,
     newSchemaValidationSettings
       ([@FailFast string nat nat; VisitAsResponse; VisitAsRequest]
        ++ [VisitAsRequest; VisitAsResponse]) = Returned s /\
     asreq s = false /\ asrep s = true).
Proof.
  assert (H : Forall Recognized [@FailFast string nat nat; VisitAsResponse; VisitAsRequest]).
  { repeat (constructor; [eexists; constructor|]). constructor. }
  split; [exact H|].
  apply (direction_exclusive string nat nat _ H).
Defined.

(** Response after request: the direction is the last one selected, also
    with unrelated options before, between and after. *)
Lemma later_option_wins_witness :
  exists s,
    newSchemaValidationSettings
      ([@VisitAsRequest string nat nat; FailFast] ++ VisitAsResponse :: [MultiErrors])
      = Returned s /\
    asreq s = false /\ asrep s = true.
Proof.
  assert (Hpre : Forall Recognized [@VisitAsRequest string nat nat; FailFast]).
  { repeat (constructor; [eexists; constructor|]). constructor. }
  assert (Hpost : Forall (fun opt' => exists F', F' <> DirectionField /\ recognizedFor F' opt')
                         [@MultiErrors string nat nat]).
  { repeat (constructor; [eexists; split; [|constructor]; discriminate|]). constructor. }
  destruct (proj2 (later_option_wins string nat nat)
              DirectionField _ VisitAsResponse _ _
              Hpre (RecVisitAsResponse string nat nat) eq_refl Hpost)
    as (s & Hs & Hsame).
  exists s; split; [exact Hs|]. exact (Hsame zeroSettings).
Defined.

Lemma option_frame_witness :
  Forall Recognized [@FailFast string nat nat; VisitAsRequest; DisablePatternValidation] /\
  exists s,
    newSchemaValidationSettings
      [@FailFast string nat nat; VisitAsRequest; DisablePatternValidation] = Returned s /\
    failfast s = true /\ patternValidationDisabled s = true.
Proof.
  assert (H : Forall Recognized
                [@FailFast string nat nat; VisitAsRequest; DisablePatternValidation]).
  { repeat (constructor; [eexists; constructor|]). constructor. }
  split; [exact H|].
  destruct (proj2 (option_frame string nat nat) _ H)
    as (s & Hs & Hff & _ & _ & _ & Hpat & _).
  exists s; split; [exact Hs|]. split.
  - apply Hff; simpl; auto.
  - apply Hpat; simpl; auto.
Defined.

(** Three notifications on a fresh policy run the callback once. *)
Lemma defaultsSet_runs_once_witness :
  Forall Recognized [@DefaultsSet string nat nat (Some countDefaults)] /\
  newSchemaValidationSettings [@DefaultsSet string nat nat (Some countDefaults)]
    = Returned (set_defaultsSet (Some countDefaults) zeroSettings) /\
  defaultsExecutions
    (calls (notifyTimes 3 (set_defaultsSet (Some countDefaults)
                             (@zeroSettings string nat nat)) 7)) = 1 /\
  world (notifyTimes 3 (set_defaultsSet (Some countDefaults)
                          (@zeroSettings string nat nat)) 7) = 107.
Proof.
  assert (H : Forall Recognized [@DefaultsSet string nat nat (Some countDefaults)]).
  { repeat (constructor; [eexists; constructor|]). constructor. }
  split; [exact H|]. split; [reflexivity|].
  apply (proj2 (defaultsSet_runs_once string nat nat)
           [DefaultsSet (Some countDefaults)]
           (set_defaultsSet (Some countDefaults) zeroSettings)
           countDefaults 7 H eq_refl eq_refl).
Defined.

(** A customizer that only words odd errors: error 3 gets its wording,
    error 2 the default rendering. *)
Lemma formatErrorMessage_cases_witness :
  result (formatErrorMessage numberedError
            (set_customizeMessageError (Some onlyOddErrors)
               (@zeroSettings string nat nat)) 3 0) = Returned "odd error" /\
  result (formatErrorMessage numberedError
            (set_customizeMessageError (Some onlyOddErrors)
               (@zeroSettings string nat nat)) 2 0) = Returned "error".
Proof.
  split.
  - apply (proj2 (proj2
      (formatErrorMessage_cases string nat nat numberedError
         (set_customizeMessageError (Some onlyOddErrors) zeroSettings) 3 0))
      onlyOddErrors eq_refl).
    discriminate.
  - apply (proj1 (proj2
      (formatErrorMessage_cases string nat nat numberedError
         (set_customizeMessageError (Some onlyOddErrors) zeroSettings) 2 0))
      onlyOddErrors eq_refl).
    reflexivity.
Defined.

Arguments set_failfast {Schema SchemaError World} v s.
Arguments customizeSchemaResolve {Schema SchemaError World} s.
Arguments toggleOption {Schema SchemaError World} t.

(** ** Worked instances of the further properties *)

Lemma repeated_option_is_idle_witness :
  Recognized (@FailFast string nat nat) /\
  newSchemaValidationSettings ([@VisitAsRequest string nat nat] ++ FailFast :: FailFast :: [MultiErrors]) =
  newSchemaValidationSettings ([@VisitAsRequest string nat nat] ++ FailFast :: [MultiErrors]).
Proof.
  assert (H : Recognized (@FailFast string nat nat)) by (eexists; constructor).
  split; [exact H|].
  apply (repeated_option_is_idle string nat nat [VisitAsRequest] [MultiErrors] FailFast H).
Defined.

Lemma unrelated_options_commute_witness :
  FailfastField <> DirectionField /\
  newSchemaValidationSettings ([] ++ @FailFast string nat nat :: VisitAsResponse :: [MultiErrors]) =
  newSchemaValidationSettings ([] ++ @VisitAsResponse string nat nat :: FailFast :: [MultiErrors]).
Proof.
  assert (H : FailfastField <> DirectionField) by discriminate.
  split; [exact H|].
  apply (unrelated_options_commute string nat nat [] [MultiErrors]
           FailfastField DirectionField FailFast VisitAsResponse
           (RecFailFast string nat nat) (RecVisitAsResponse string nat nat) H).
Defined.

Lemma direction_set_iff_selected_witness :
  Forall Recognized [@FailFast string nat nat; VisitAsRequest] /\
  exists s,
    newSchemaValidationSettings [@FailFast string nat nat; VisitAsRequest] = Returned s /\
    xorb (asreq s) (asrep s) = true.
Proof.
  assert (H : Forall Recognized [@FailFast string nat nat; VisitAsRequest]).
  { repeat (constructor; [eexists; constructor|]). constructor. }
  split; [exact H|].
  destruct (direction_set_iff_selected string nat nat _ H) as (s & Hs & Hxor & _).
  exists s; split; [exact Hs|]. apply Hxor. left; simpl; auto.
Defined.

Lemma toggles_are_never_cleared_witness :
  Forall Recognized [@VisitAsRequest string nat nat; MultiErrors] /\
  newSchemaValidationSettings [@FailFast string nat nat] =
    Returned (set_failfast true zeroSettings) /\
  exists s,
    newSchemaValidationSettings ([@FailFast string nat nat] ++ [VisitAsRequest; MultiErrors])
      = Returned s /\
    failfast s = true.
Proof.
  assert (H : Forall Recognized [@VisitAsRequest string nat nat; MultiErrors]).
  { repeat (constructor; [eexists; constructor|]). constructor. }
  split; [exact H|]. split; [reflexivity|].
  destruct (toggles_are_never_cleared string nat nat [FailFast] _
              (set_failfast true zeroSettings) H eq_refl) as (s & Hs & Hff & _).
  exists s; split; [exact Hs|]. apply Hff; reflexivity.
Defined.

(** A policy built with a defaults callback holds that callback, which is
    the argument of the setter in the list; it holds no other hook and its
    latch has not fired. *)
Lemma hooks_come_from_their_setters_witness :
  Forall Recognized [@FailFast string nat nat; DefaultsSet (Some countDefaults)] /\
  exists s,
    newSchemaValidationSettings
      [@FailFast string nat nat; DefaultsSet (Some countDefaults)] = Returned s /\
    defaultsSet s = Some countDefaults /\
    (forall f, defaultsSet s = Some f ->
       In (DefaultsSet (Some f))
          [@FailFast string nat nat; DefaultsSet (Some countDefaults)]) /\
    (forall f, customizeMessageError string nat nat s = Some f ->
       In (SetSchemaErrorMessageCustomizer (Some f))
          [@FailFast string nat nat; DefaultsSet (Some countDefaults)]) /\
    (forall f, customizeSchemaResolve s = Some f ->
       In (SetCustomizeSchemaResolve (Some f))
          [@FailFast string nat nat; DefaultsSet (Some countDefaults)]) /\
    done (onceSettingDefaults string nat nat s) = false.
Proof.
  assert (H : Forall Recognized
                [@FailFast string nat nat; DefaultsSet (Some countDefaults)]).
  { repeat (constructor; [eexists; constructor|]). constructor. }
  split; [exact H|].
  destruct (hooks_come_from_their_setters string nat nat _ H)
    as (s & Hs & Hd & Hm & Hr & Hl).
  exists s; split; [exact Hs|]. split.
  - pose proof Hs as Hs'. cbv in Hs'. injection Hs' as <-. reflexivity.
  - repeat split; assumption.
Defined.

Lemma toggle_lists_order_insensitive_witness :
  newSchemaValidationSettings [@FailFast string nat nat; MultiErrors; FailFast] =
  newSchemaValidationSettings [@MultiErrors string nat nat; FailFast].
Proof.
  apply (toggle_lists_order_insensitive string nat nat).
  - repeat constructor;
      first [ now exists TFailfast | now exists TMultiError ].
  - repeat constructor;
      first [ now exists TFailfast | now exists TMultiError ].
  - intros t; simpl; tauto.
Defined.

Lemma schemaResolve_ignores_other_options_witness :
  FailfastField <> SchemaResolveField /\
  schemaResolve
    (Some (set_failfast true
             (set_customizeSchemaResolve (Some petResolver) (@zeroSettings string nat nat))))
    (Some (mkSchemaRef "#/components/schemas/Pet" None)) 0 =
  schemaResolve
    (Some (set_customizeSchemaResolve (Some petResolver) (@zeroSettings string nat nat)))
    (Some (mkSchemaRef "#/components/schemas/Pet" None)) 0.
Proof.
  assert (H : FailfastField <> SchemaResolveField) by discriminate.
  split; [exact H|].
  apply (schemaResolve_ignores_other_options string nat nat
           FailfastField FailFast (fun s => set_failfast true s)
           (RecFailFast string nat nat) H eq_refl).
Defined.

Lemma constructed_policy_resolves_witness :
  exists s,
    newSchemaValidationSettings
      ([@FailFast string nat nat] ++ SetCustomizeSchemaResolve (Some petResolver)
         :: [MultiErrors]) = Returned s /\
    schemaResolve (Some s) (Some (mkSchemaRef "#/components/schemas/Pet" None)) 0 =
      mkRun (Returned (Some "Pet")) 1 [CallSchemaResolve "#/components/schemas/Pet"].
Proof.
  assert (Hpre : Forall Recognized [@FailFast string nat nat]).
  { repeat (constructor; [eexists; constructor|]). constructor. }
  assert (Hpost : Forall (fun opt => exists F', F' <> SchemaResolveField /\ recognizedFor F' opt)
                         [@MultiErrors string nat nat]).
  { repeat (constructor; [eexists; split; [|constructor]; discriminate|]). constructor. }
  destruct (constructed_policy_resolves string nat nat [FailFast] [MultiErrors]
              (Some petResolver) (mkSchemaRef "#/components/schemas/Pet" None) 0
              Hpre Hpost eq_refl) as (s & Hs & Hcall & _).
  exists s; split; [exact Hs|].
  apply (Hcall petResolver eq_refl). discriminate.
Defined.

Lemma policy_without_resolver_witness :
  exists s,
    newSchemaValidationSettings [@FailFast string nat nat; SetCustomizeSchemaResolve None]
      = Returned s /\
    schemaResolve (Some s) (Some (mkSchemaRef "#/components/schemas/Pet" None)) 0 =
      mkRun (Returned None) 0 [].
Proof.
  assert (H : Forall Recognized [@FailFast string nat nat; SetCustomizeSchemaResolve None]).
  { repeat (constructor; [eexists; constructor|]). constructor. }
  apply (policy_without_resolver string nat nat _
           (mkSchemaRef "#/components/schemas/Pet" None) 0 H); [|reflexivity].
  intros g [E|[E|[]]];
    apply (f_equal (fun opt : SchemaValidationOption string nat nat =>
                      match opt with
                      | Some f => customizeSchemaResolve (f zeroSettings)
                      | None => None
                      end)) in E;
    discriminate E.
Defined.
